(** * stac-pydantic: extension registry, datetime validator, item validation

    A shallow embedding of the three pieces of [stac_pydantic] that carry
    control flow:

    - [stac_pydantic/extensions/__init__.py]: the class [Extensions]
      ([register], [get]);
    - [stac_pydantic/item.py]: [ItemProperties.validate_datetime] and
      [validate_item].

    Python objects are modelled by the inductive type [Py.value], raised
    exceptions by [Py.exn], and a call that may raise by [Py.outcome].
    Functions of libraries outside the repository ([urllib.parse.urlparse],
    [pydantic.datetime_parse.parse_datetime], [Item.parse_obj],
    [requests.get], [jsonschema.validate]) are arguments of the embedded
    functions; concrete instances used in the examples are given next to
    them. *)

From stdpp Require Import gmap strings list.
From Stdlib Require Import ZArith Ascii String Bool Lia.

Local Open Scope string_scope.
Local Set Warnings "-register-all".

(** ** Python values, exceptions, outcomes *)

Module Py.

(** [datetime.datetime]: civil fields and the offset of [tzinfo] in
    minutes east of UTC ([None] for a naive value). *)
Record datetime : Type := mk_datetime {
  year : Z; month : Z; day : Z;
  hour : Z; minute : Z; second : Z; microsecond : Z;
  tzinfo : option Z
}.

(** The objects that occur in raw documents and in validated fields.
    Numbers are integers; dictionaries nested inside a value keep their
    insertion order. *)
Inductive value : Type :=
| VNone
| VBool (b : bool)
| VInt (n : Z)
| VStr (s : string)
| VDatetime (d : datetime)
| VList (l : list value)
| VDict (d : list (string * value)).

(** Exceptions. All but [KeyboardInterrupt] derive from [Exception];
    [DateTimeError] is pydantic's [errors.DateTimeError] (a [ValueError],
    "invalid datetime format"). *)
Inductive exn : Type :=
| AttributeError (msg : string)
| KeyError (key : string)
| TypeError
| ValueError (msg : string)
| DateTimeError
| ValidationError (msg : string)
| RequestException (msg : string)
| JSONDecodeError
| SchemaError (msg : string)
| SchemaValidationError (msg : string)
| KeyboardInterrupt.

(** [isinstance(e, Exception)] *)
Definition is_Exception (e : exn) : bool :=
  match e with
  | KeyboardInterrupt => false
  | _ => true
  end.

Inductive outcome (A : Type) : Type :=
| Return (a : A)
| Raise (e : exn).
Arguments Return {A} a.
Arguments Raise {A} e.

Definition bind {A B} (c : outcome A) (k : A -> outcome B) : outcome B :=
  match c with
  | Return a => k a
  | Raise e => Raise e
  end.

(** [bool(v)] *)
Definition truthy (v : value) : bool :=
  match v with
  | VNone => false
  | VBool b => b
  | VInt n => negb (n =? 0)%Z
  | VStr s => negb (String.eqb s "")
  | VDatetime _ => true
  | VList l => match l with [] => false | _ => true end
  | VDict d => match d with [] => false | _ => true end
  end.

(** [v == s] for a [str] literal [s] *)
Definition eq_str (v : value) (s : string) : bool :=
  match v with
  | VStr s' => String.eqb s' s
  | _ => false
  end.

(** [isinstance(v, str)] *)
Definition is_str (v : value) : bool :=
  match v with
  | VStr _ => true
  | _ => false
  end.

(** [d[k]] on a [dict] with [str] keys *)
Definition getitem (d : gmap string value) (k : string) : outcome value :=
  match d !! k with
  | Some v => Return v
  | None => Raise (KeyError k)
  end.

Fixpoint chars (s : string) : list value :=
  match s with
  | EmptyString => []
  | String c r => VStr (String c EmptyString) :: chars r
  end.

(** The items a [for] loop over [v] visits: the elements of a list, the
    characters of a string, the keys of a dictionary; other objects are
    not iterable. *)
Definition iter (v : value) : outcome (list value) :=
  match v with
  | VList l => Return l
  | VStr s => Return (chars s)
  | VDict d => Return (map (fun kv => VStr (fst kv)) d)
  | _ => Raise TypeError
  end.

(** [s.replace(old, new)] for one-character [old] and [new] *)
Fixpoint replace (old new : ascii) (s : string) : string :=
  match s with
  | EmptyString => EmptyString
  | String c r =>
      String (if Ascii.eqb c old then new else c) (replace old new r)
  end.

End Py.

Import Py.

#[global] Instance outcome_ret : MRet outcome := @Return.
#[global] Instance outcome_bind : MBind outcome := fun A B k c => Py.bind c k.
#[global] Instance outcome_fmap : FMap outcome :=
  fun A B f c => Py.bind c (fun a => Return (f a)).

(** ** [urllib.parse.urlparse(k).scheme] *)

Module urllib.

Definition code (c : ascii) : nat := nat_of_ascii c.

Definition is_upper (c : ascii) : bool := (65 <=? code c)%nat && (code c <=? 90)%nat.
Definition is_lower (c : ascii) : bool := (97 <=? code c)%nat && (code c <=? 122)%nat.
Definition is_digit (c : ascii) : bool := (48 <=? code c)%nat && (code c <=? 57)%nat.
Definition is_ascii_alpha (c : ascii) : bool := is_upper c || is_lower c.

(** [c in scheme_chars]: letters, digits and ["+-."] *)
Definition scheme_char (c : ascii) : bool :=
  is_ascii_alpha c || is_digit c
  || Ascii.eqb c "+" || Ascii.eqb c "-" || Ascii.eqb c ".".

Definition lower_char (c : ascii) : ascii :=
  if is_upper c then ascii_of_nat (code c + 32) else c.

Fixpoint lower (s : string) : string :=
  match s with
  | EmptyString => EmptyString
  | String c r => String (lower_char c) (lower r)
  end.

(** [url.lstrip(_WHATWG_C0_CONTROL_OR_SPACE)]: drop leading characters
    U+0000..U+0020 *)
Fixpoint lstrip_c0_space (s : string) : string :=
  match s with
  | String c r => if (code c <=? 32)%nat then lstrip_c0_space r else s
  | EmptyString => EmptyString
  end.

(** removal of [_UNSAFE_URL_BYTES_TO_REMOVE]: tab, carriage return, newline *)
Fixpoint remove_unsafe (s : string) : string :=
  match s with
  | EmptyString => EmptyString
  | String c r =>
      if (code c =? 9)%nat || (code c =? 13)%nat || (code c =? 10)%nat
      then remove_unsafe r
      else String c (remove_unsafe r)
  end.

(** [url.partition(":")] when [":"] occurs: the text before the first
    colon and the text after it *)
Fixpoint split_colon (s : string) : option (string * string) :=
  match s with
  | EmptyString => None
  | String c r =>
      if Ascii.eqb c ":" then Some (EmptyString, r)
      else match split_colon r with
           | Some (a, b) => Some (String c a, b)
           | None => None
           end
  end.

Fixpoint all_chars (p : ascii -> bool) (s : string) : bool :=
  match s with
  | EmptyString => true
  | String c r => p c && all_chars p r
  end.

Fixpoint mem_char (x : ascii) (s : string) : bool :=
  match s with
  | EmptyString => false
  | String c r => Ascii.eqb c x || mem_char x r
  end.

(** [_splitnetloc(url, 2)] on the text after ["//"]: the network location
    ends at the first of ["/"], ["?"], ["#"] *)
Fixpoint netloc_of (s : string) : string :=
  match s with
  | EmptyString => EmptyString
  | String c r =>
      if Ascii.eqb c "/" || Ascii.eqb c "?" || Ascii.eqb c "#"
      then EmptyString
      else String c (netloc_of r)
  end.

(** The scheme that [urlsplit] (and so [urlparse]) splits off, after
    CPython's [urllib/parse.py]; the host checks stop at the test for
    unbalanced brackets ("Invalid IPv6 URL"). *)
Definition urlparse_scheme (url : string) : outcome string :=
  let url := remove_unsafe (lstrip_c0_space url) in
  let '(scheme, rest) :=
    match split_colon url with
    | Some (String c0 pre, rest) =>
        if is_ascii_alpha c0 && all_chars scheme_char (String c0 pre)
        then (lower (String c0 pre), rest)
        else (EmptyString, url)
    | _ => (EmptyString, url)
    end in
  match rest with
  | String "/" (String "/" after) =>
      let netloc := netloc_of after in
      if xorb (mem_char "[" netloc) (mem_char "]" netloc)
      then Raise (ValueError "Invalid IPv6 URL")
      else Return scheme
  | _ => Return scheme
  end.

End urllib.

(** ** [stac_pydantic/extensions/__init__.py]: class [Extensions] *)

Module Extensions.

(** An extension model class, named by its class name. *)
Inductive model : Type :=
| Model (class_name : string).

(** The objects bound in the namespace of the class: extension models,
    the [aliases] dictionary (alias to name), and the two class methods. *)
Inductive attr : Type :=
| ExtensionModel (m : model)
| AliasTable (d : gmap string string)
| ClassMethod (name : string).

(** The registry state is the attribute namespace of the class. [setattr]
    and [getattr] on ordinary names are insertion and lookup in it. *)
Abbreviation namespace := (gmap string attr).

(** The class body, lines 18 to 41. *)
Definition builtins : namespace :=
  list_to_map
    [ ("datacube", ExtensionModel (Model "DatacubeExtension"));
      ("eo", ExtensionModel (Model "ElectroOpticalExtension"));
      ("item_assets", ExtensionModel (Model "ItemAssetExtension"));
      ("label", ExtensionModel (Model "LabelExtension"));
      ("pointcloud", ExtensionModel (Model "PointCloudExtension"));
      ("projection", ExtensionModel (Model "ProjectionExtension"));
      ("sar", ExtensionModel (Model "SARExtension"));
      ("sat", ExtensionModel (Model "SatelliteExtension"));
      ("scientific", ExtensionModel (Model "ScientificCitationExtension"));
      ("timestamps", ExtensionModel (Model "TimestampsExtension"));
      ("version", ExtensionModel (Model "VersionExtension"));
      ("view", ExtensionModel (Model "ViewExtension"));
      ("aliases", AliasTable ∅);
      ("register", ClassMethod "register");
      ("get", ClassMethod "get") ].

(** The message of the [AttributeError] that [getattr(cls, name)] raises *)
Definition no_attribute (name : string) : string :=
  "type object 'Extensions' has no attribute '" +:+ name +:+ "'".

Definition getattr (cls : namespace) (name : string) : outcome attr :=
  match cls !! name with
  | Some a => Return a
  | None => Raise (AttributeError (no_attribute name))
  end.

Definition one_of_names (names : list string) (name : string) : bool :=
  existsb (String.eqb name) names.

(** The names that [type.__setattr__] does not let a class rebind to a
    class object, and the exception it raises for them (CPython 3.11):
    the setters of [__bases__], [__class__], [__name__] and
    [__qualname__] reject the value, the other names are read-only. *)
Definition setattr_error (name : string) : option exn :=
  if one_of_names ["__bases__"; "__class__"; "__name__"; "__qualname__"] name
  then Some TypeError
  else if one_of_names
            ["__base__"; "__basicsize__"; "__dictoffset__"; "__flags__";
             "__itemsize__"; "__mro__"; "__weakrefoffset__"] name
  then Some (AttributeError "readonly attribute")
  else if one_of_names ["__dict__"; "__text_signature__"] name
  then Some (AttributeError
               ("attribute '" +:+ name +:+ "' of 'type' objects is not writable"))
  else None.

(** [setattr(cls, name, a)] for a class object [a]: the namespace with the
    name rebound, unless the name is one that a class cannot rebind. *)
Definition setattr (cls : namespace) (name : string) (a : attr)
    : outcome namespace :=
  match setattr_error name with
  | Some e => Raise e
  | None => Return (<[name := a]> cls)
  end.

(** [if alias:] on an optional [str] *)
Definition alias_given (alias : option string) : option string :=
  match alias with
  | Some a => if String.eqb a "" then None else Some a
  | None => None
  end.

(** [register(cls, k, v, alias=None)]: the outcome and the namespace the
    call leaves behind.

    [cls.aliases[alias] = k] reads the attribute [aliases] of the class as
    it is after the [setattr] and stores into that dictionary; an object
    that is not a dictionary does not support item assignment. *)
Definition register (cls : namespace) (k : string) (v : model)
    (alias : option string) : outcome unit * namespace :=
  match setattr cls k (ExtensionModel v) with
  | Raise e => (Raise e, cls)
  | Return cls =>
      match alias_given alias with
      | Some a =>
          match getattr cls "aliases" with
          | Return (AliasTable d) =>
              (Return tt, <["aliases" := AliasTable (<[a := k]> d)]> cls)
          | Return _ => (Raise TypeError, cls)
          | Raise e => (Raise e, cls)
          end
      | None => (Return tt, cls)
      end
  end.

(** Lines 44 to 50 of [get]: the attribute lookup, and in its
    [AttributeError] handler the lookup through the alias table, whose
    [KeyError] becomes the "Invalid extension name or alias" error. *)
Definition lookup (cls : namespace) (k : string) : outcome attr :=
  match getattr cls k with
  | Return a => Return a
  | Raise (AttributeError _) =>
      match getattr cls "aliases" with
      | Return (AliasTable d) =>
          match d !! k with
          | Some name => getattr cls name
          | None =>
              Raise (AttributeError ("Invalid extension name or alias: " +:+ k))
          end
      | Return _ => Raise TypeError
      | Raise e => Raise e
      end
  | Raise e => Raise e
  end.

Section Get.

(** [fun k => urlparse(k).scheme] *)
Variable urlparse_scheme : string -> outcome string.

(** Lines 42 and 43 of [get]: the key that is looked up *)
Definition lookup_key (k : string) : outcome string :=
  scheme ← urlparse_scheme k;
  mret (if negb (truthy (VStr scheme)) then replace "-" "_" k else k).

(** [get(cls, k)] *)
Definition get (cls : namespace) (k : string) : outcome attr :=
  k ← lookup_key k;
  lookup cls k.

End Get.

End Extensions.

(** ** [pydantic.datetime_parse.parse_datetime] on text *)

Module datetime_parse.

Import urllib.

Definition digit_value (c : ascii) : Z := Z.of_nat (code c) - 48.

Fixpoint int_acc (acc : Z) (s : string) : Z :=
  match s with
  | EmptyString => acc
  | String c r => int_acc (10 * acc + digit_value c) r
  end.

(** [int(s)] on a string of decimal digits *)
Definition int (s : string) : Z := int_acc 0 s.

(** The longest run of at most [n] digits at the head of [s], and the rest *)
Fixpoint span_digits (n : nat) (s : string) : string * string :=
  match n, s with
  | S n', String c r =>
      if is_digit c
      then let '(d, rest) := span_digits n' r in (String c d, rest)
      else (EmptyString, s)
  | _, _ => (EmptyString, s)
  end.

(** [\d{lo,hi}] *)
Definition digits (lo hi : nat) (s : string) : option (string * string) :=
  let '(d, rest) := span_digits hi s in
  if (lo <=? String.length d)%nat then Some (d, rest) else None.

(** one character out of [cs] *)
Definition one_of (cs : string) (s : string) : option (ascii * string) :=
  match s with
  | String c r => if mem_char c cs then Some (c, r) else None
  | EmptyString => None
  end.

(** [$]: the end of the text, or the newline that ends it *)
Definition at_end (s : string) : bool :=
  String.eqb s "" || String.eqb s (String (ascii_of_nat 10) "").

(** [s.ljust(6, "0")] *)
Definition ljust6 (s : string) : string :=
  s +:+ substring 0 (6 - String.length s) "000000".

(** The group [tzinfo] followed by [$], and [_parse_timezone] on it:
    absent, ["Z"], or a sign, two digits and optionally (after an optional
    colon) two more. [None] when the pattern does not match, [Some (inl tt)]
    when the offset is not strictly within a day. *)
Definition tz_group (s : string) : option (unit + option Z) :=
  if at_end s then Some (inr None) else
  match one_of "Z+-" s with
  | Some (c, r) =>
      if Ascii.eqb c "Z" then
        if at_end r then Some (inr (Some 0%Z)) else None
      else
        '(hh, r) ← digits 2 2 r;
        let r' := match one_of ":" r with Some (_, r') => r' | None => r end in
        mins ← match digits 2 2 r' with
               | Some (mm, r'') => if at_end r'' then Some (int mm) else None
               | None => if at_end r then Some 0%Z else None
               end;
        let offset := (60 * int hh + mins)%Z in
        let offset := if Ascii.eqb c "-" then (- offset)%Z else offset in
        if (Z.abs offset <? 1440)%Z then Some (inr (Some offset))
        else Some (inl tt)
  | None => None
  end.

(** The groups [second] and [microsecond]: [(?::(\d{1,2})(?:\.(\d{1,6})\d{0,6})?)?] *)
Definition seconds_group (s : string) : (Z * Z) * string :=
  match one_of ":" s with
  | Some (_, r) =>
      match digits 1 2 r with
      | Some (ss, r) =>
          match one_of "." r with
          | Some (_, r') =>
              match digits 1 6 r' with
              | Some (us, r') =>
                  let '(_, r') := span_digits 6 r' in
                  (int ss, int (ljust6 us), r')
              | None => (int ss, 0%Z, r)
              end
          | None => (int ss, 0%Z, r)
          end
      | None => (0%Z, 0%Z, s)
      end
  | None => (0%Z, 0%Z, s)
  end.

Definition is_leap (y : Z) : bool :=
  ((y mod 4 =? 0) && negb (y mod 100 =? 0) || (y mod 400 =? 0))%Z.

Definition days_in_month (y m : Z) : Z :=
  if (m =? 2)%Z then (if is_leap y then 29 else 28)
  else if ((m =? 4) || (m =? 6) || (m =? 9) || (m =? 11))%Z then 30
  else 31.

(** The checks of the [datetime(...)] constructor *)
Definition valid_fields (y mo d h mi s : Z) : bool :=
  ((1 <=? y) && (1 <=? mo) && (mo <=? 12)
   && (1 <=? d) && (d <=? days_in_month y mo)
   && (h <=? 23) && (mi <=? 59) && (s <=? 59))%Z.

(** The match of [datetime_re] and the construction of the value, [None]
    for every failure ([errors.DateTimeError]). *)
Definition match_datetime (s : string) : option datetime :=
  '(y, s) ← digits 4 4 s;
  '(_, s) ← one_of "-" s;
  '(mo, s) ← digits 1 2 s;
  '(_, s) ← one_of "-" s;
  '(d, s) ← digits 1 2 s;
  '(_, s) ← one_of "T " s;
  '(h, s) ← digits 1 2 s;
  '(_, s) ← one_of ":" s;
  '(mi, s) ← digits 1 2 s;
  let '(sec, us, s) := seconds_group s in
  tz ← tz_group s;
  match tz with
  | inl _ => None
  | inr tz =>
      if valid_fields (int y) (int mo) (int d) (int h) (int mi) sec
      then Some (mk_datetime (int y) (int mo) (int d) (int h) (int mi) sec us tz)
      else None
  end.

(** [parse_datetime(value)] for a [str] that Python's [float()] does not
    read as a number (numeric text is taken by pydantic as a unix
    timestamp, which this instance does not cover): the text must match
    [datetime_re], ASCII digits only. *)
Definition parse_datetime (s : string) : outcome datetime :=
  match match_datetime s with
  | Some d => Return d
  | None => Raise DateTimeError
  end.

End datetime_parse.

(** ** [stac_pydantic/item.py] *)

Module item.

(** *** [ItemProperties.validate_datetime] *)

Definition range_required : string :=
  "start_datetime and end_datetime must be specified when datetime is null".

Section ValidateDatetime.

(** [pydantic.datetime_parse.parse_datetime] on a [str] *)
Variable parse_datetime : string -> outcome datetime.

(** [validate_datetime(cls, v, values)]: [v] is the value of the field
    [datetime], [values] holds the fields validated before it. *)
Definition validate_datetime (v : value) (values : gmap string value)
    : outcome value :=
  (if eq_str v "null" then
     start_datetime ← getitem values "start_datetime";
     if negb (truthy start_datetime) then
       end_datetime ← getitem values "end_datetime";
       if negb (truthy end_datetime)
       then Raise (ValueError range_required)
       else mret tt
     else mret tt
   else mret tt);;
  match v with
  | VStr s => VDatetime <$> parse_datetime s
  | _ => mret v
  end.

(** Lines 34 to 37 on their own: what the validator does once the guard
    has passed. *)
Definition parse_if_str (v : value) : outcome value :=
  match v with
  | VStr s => VDatetime <$> parse_datetime s
  | _ => Return v
  end.

End ValidateDatetime.

(** *** [validate_item] *)

(** A computation that may raise and that acts on the world outside the
    process (the network). *)
Definition io (World A : Type) : Type := World -> outcome A * World.

Definition io_ret {World A} (a : A) : io World A := fun w => (Return a, w).

Definition io_bind {World A B} (k : A -> io World B) (c : io World A)
    : io World B :=
  fun w =>
    match c w with
    | (Return a, w') => k a w'
    | (Raise e, w') => (Raise e, w')
    end.

Definition lift {World A} (c : outcome A) : io World A := fun w => (c, w).

Section ValidateItem.

Context {World Response : Type}.

(** [Item.parse_obj]: shape validation of the raw document; the [Item]
    it builds is dropped by the caller. *)
Variable Item_parse_obj : gmap string value -> outcome unit.
(** [requests.get] *)
Variable requests_get : value -> io World Response.
(** [Response.json] *)
Variable Response_json : Response -> outcome value.
(** [jsonschema.validate(instance=..., schema=...)] *)
Variable jsonschema_validate : gmap string value -> value -> io World unit.

#[local] Instance io_mret : MRet (io World) := @io_ret World.
#[local] Instance io_mbind : MBind (io World) := @io_bind World.

(** The body of the [for] loop, lines 91 to 93 *)
Definition validate_extension (item : gmap string value) (ext : value)
    : io World unit :=
  req ← requests_get ext;
  schema ← lift (Response_json req);
  jsonschema_validate item schema.

Fixpoint for_each (body : value -> io World unit) (l : list value)
    : io World unit :=
  match l with
  | [] => mret tt
  | x :: l' => body x;; for_each body l'
  end.

(** The [try] block, lines 88 to 93 *)
Definition validate_item_try (item : gmap string value) : io World unit :=
  lift (Item_parse_obj item);;
  stac_extensions ← lift (getitem item "stac_extensions");
  if truthy stac_extensions then
    exts ← lift (iter stac_extensions);
    for_each (validate_extension item) exts
  else mret tt.

(** [validate_item(item, reraise_exception=False)] *)
Definition validate_item (item : gmap string value) (reraise_exception : bool)
    : io World bool :=
  fun w =>
    match validate_item_try item w with
    | (Return _, w') => (Return true, w')
    | (Raise e, w') =>
        if is_Exception e then
          if reraise_exception then (Raise e, w') else (Return false, w')
        else (Raise e, w')
    end.

End ValidateItem.

End item.

(** ** Sample data used in the examples *)

Module samples.

Import Extensions item.

Definition jan_1 : datetime := mk_datetime 2020 1 1 0 0 0 0 (Some 0%Z).
Definition jan_2 : datetime := mk_datetime 2020 1 2 0 0 0 0 (Some 0%Z).

(** the fields validated before [datetime], with a full range *)
Definition full_range : gmap string value :=
  {[ "start_datetime" := VDatetime jan_1; "end_datetime" := VDatetime jan_2 ]}.

(** only [start_datetime] is set *)
Definition start_only : gmap string value :=
  {[ "start_datetime" := VDatetime jan_1; "end_datetime" := VNone ]}.

(** only [end_datetime] is set *)
Definition end_only : gmap string value :=
  {[ "start_datetime" := VNone; "end_datetime" := VDatetime jan_2 ]}.

(** neither is set *)
Definition no_range : gmap string value :=
  {[ "start_datetime" := VNone; "end_datetime" := VNone ]}.

(** An item document that declares no [stac_extensions] key. *)
Definition plain_item : gmap string value :=
  list_to_map
    [ ("type", VStr "Feature");
      ("stac_version", VStr "1.0.0-beta.1");
      ("id", VStr "item-1");
      ("geometry", VDict [("type", VStr "Point");
                          ("coordinates", VList [VInt 0; VInt 0])]);
      ("bbox", VList [VInt 0; VInt 0; VInt 0; VInt 0]);
      ("properties", VDict [("datetime", VStr "2020-01-01T00:00:00Z")]);
      ("assets", VDict []);
      ("links", VList []) ].

(** The same document without its [id]. *)
Definition item_without_id : gmap string value := delete "id" plain_item.

(** The same document with one declared extension. *)
Definition item_with_extension : gmap string value :=
  <["stac_extensions" := VList [VStr "https://example.com/ext/schema.json"]]>
    plain_item.

Definition required_keys : list string :=
  ["type"; "stac_version"; "id"; "geometry"; "bbox"; "properties"; "assets"; "links"].

(** A stand-in for [Item.parse_obj] that only checks that the required
    keys are present. *)
Definition parse_obj_required (doc : gmap string value) : outcome unit :=
  match filter (fun k => bool_decide (doc !! k = None)) required_keys with
  | [] => Return tt
  | k :: _ => Raise (ValidationError (k +:+ ": field required"))
  end.

(** A world without network: the state is the list of URLs requested so
    far, and every request fails. *)
Definition offline_get (url : value) : io (list value) value :=
  fun w => (Raise (RequestException "connection refused"), (w ++ [url])%list).

Definition json_body (r : value) : outcome value := Return r.

Definition accept_schema (doc : gmap string value) (schema : value)
    : io (list value) unit :=
  fun w => (Return tt, w).

End samples.

(** ** States of the registry *)

Module registry_state.

Import Extensions.

(** The dictionary that the attribute [aliases] holds, if it still holds
    one. *)
Definition alias_table (cls : namespace) : option (gmap string string) :=
  match cls !! "aliases" with
  | Some (AliasTable d) => Some d
  | _ => None
  end.

(** Every alias of the table names an attribute of the class. *)
Definition aliases_bound (cls : namespace) : Prop :=
  ∀ d a k, alias_table cls = Some d → d !! a = Some k → is_Some (cls !! k).

(** The namespaces that calls of [register] lead to from the class body,
    whether a call completes or raises. *)
Inductive reachable : namespace → Prop :=
| reachable_builtins : reachable builtins
| reachable_register (cls : namespace) (k : string) (v : model)
    (alias : option string) :
    reachable cls → reachable (register cls k v alias).2.

End registry_state.

(** ** Runs of the loop over the declared extensions *)

Module item_runs.

Import item.

Section Runs.

Context {World : Type}.
Variable body : value -> io World unit.

(** [body] returns on every element of the list in turn, each call
    starting in the world that the one before has left. *)
Inductive each_succeeds : list value → World → World → Prop :=
| each_nil (w : World) : each_succeeds [] w w
| each_cons (x : value) (l : list value) (w w1 w2 : World) :
    body x w = (Return tt, w1) → each_succeeds l w1 w2 →
    each_succeeds (x :: l) w w2.

End Runs.

End item_runs.

(** ** Failures of item validation, by kind *)

Module item_failures.

Import item.

Section Failures.

Context {World Response : Type}.
Variable Item_parse_obj : gmap string value -> outcome unit.
Variable requests_get : value -> io World Response.
Variable Response_json : Response -> outcome value.
Variable jsonschema_validate : gmap string value -> value -> io World unit.

(** The document is valid against one declared extension: the schema is
    fetched, its body decodes, and the schema validator accepts the
    document. *)
Definition extension_valid (doc : gmap string value) (ext : value)
    (w w' : World) : Prop :=
  ∃ req w1 schema,
    requests_get ext w = (Return req, w1)
    ∧ Response_json req = Return schema
    ∧ jsonschema_validate doc schema w1 = (Return tt, w').

(** The document is valid against every extension of the list, taken in
    order. *)
Inductive extensions_valid (doc : gmap string value)
    : list value → World → World → Prop :=
| valid_nil (w : World) : extensions_valid doc [] w w
| valid_cons (ext : value) (l : list value) (w w1 w2 : World) :
    extension_valid doc ext w w1 → extensions_valid doc l w1 w2 →
    extensions_valid doc (ext :: l) w w2.

(** The ways the validation against one extension fails, with the
    exception and the world it leaves: the request fails (network error),
    the body does not decode (malformed schema document), or the schema
    validator raises (malformed schema, or a document that does not match
    it). *)
Inductive extension_fails (doc : gmap string value) (ext : value) (w : World)
    : exn → World → Prop :=
| network_error (e : exn) (w' : World) :
    requests_get ext w = (Raise e, w') → extension_fails doc ext w e w'
| malformed_body (req : Response) (e : exn) (w' : World) :
    requests_get ext w = (Return req, w') → Response_json req = Raise e →
    extension_fails doc ext w e w'
| schema_error (req : Response) (schema : value) (e : exn) (w1 w' : World) :
    requests_get ext w = (Return req, w1) →
    Response_json req = Return schema →
    jsonschema_validate doc schema w1 = (Raise e, w') →
    extension_fails doc ext w e w'.

(** Validation of the document fails with the exception [e], the first one
    met: the construction of the [Item] raises it, or the document is
    constructed, declares a list of extensions, is valid against the ones
    before some extension of the list, and fails against that one by [e]. *)
Inductive validation_fails (doc : gmap string value) (w : World)
    : exn → World → Prop :=
| construction_error (e : exn) :
    Item_parse_obj doc = Raise e → validation_fails doc w e w
| extension_error (before after : list value) (ext : value) (e : exn)
    (w1 w' : World) :
    Item_parse_obj doc = Return tt →
    doc !! "stac_extensions" = Some (VList (before ++ ext :: after)) →
    extensions_valid doc before w w1 →
    extension_fails doc ext w1 e w' →
    validation_fails doc w e w'.

End Failures.

End item_failures.

(** ** More sample data *)

Module more_samples.

Import item samples.

Definition schema_url : value := VStr "https://example.com/ext/schema.json".
Definition other_url : value := VStr "https://example.com/other/schema.json".

(** A document that declares two extensions. *)
Definition item_with_two_extensions : gmap string value :=
  <["stac_extensions" := VList [schema_url; other_url]]> plain_item.

(** A document whose [stac_extensions] is [None]. *)
Definition item_with_none : gmap string value :=
  <["stac_extensions" := VNone]> plain_item.

(** A world in which every request is answered with an empty schema; the
    state is the list of URLs requested so far. *)
Definition online_get (url : value) : io (list value) value :=
  fun w => (Return (VDict []), (w ++ [url])%list).

(** A response whose body is not JSON. *)
Definition broken_json (r : value) : outcome value := Raise JSONDecodeError.

(** A schema validator that finds the document not to match. *)
Definition reject_schema (doc : gmap string value) (schema : value)
    : io (list value) unit :=
  fun w => (Raise (SchemaValidationError "does not match the schema"), w).

(** A shape validation that is interrupted from the keyboard. *)
Definition parse_obj_interrupted (doc : gmap string value) : outcome unit :=
  Raise KeyboardInterrupt.

(** The registry after [Extensions.register("landsat", LandsatExtension,
    alias="l8")]. *)
Definition landsat_registered : Extensions.namespace :=
  (Extensions.register Extensions.builtins "landsat"
     (Extensions.Model "LandsatExtension") (Some "l8")).2.

End more_samples.

(** * Properties *)

(** ** Text *)

Section Replace.

Variables old new : ascii.

Lemma replace_length (s : string) :
  String.length (replace old new s) = String.length s.
Proof. induction s as [|c r IH]; simpl; [reflexivity | now rewrite IH]. Qed.

(** [replace] acts on every position on its own. *)
Lemma replace_get (s : string) (n : nat) :
  String.get n (replace old new s)
  = (fun c => if Ascii.eqb c old then new else c) <$> String.get n s.
Proof.
  revert n; induction s as [|c r IH]; intros n; simpl; [reflexivity|].
  destruct n as [|n]; [reflexivity | apply IH].
Qed.

(** No occurrence of [old] is left, when [new] differs from it. *)
Lemma replace_removes (s : string) :
  old ≠ new → urllib.mem_char old (replace old new s) = false.
Proof.
  intros Hne. induction s as [|c r IH]; simpl; [reflexivity|].
  rewrite IH, orb_false_r.
  destruct (Ascii.eqb_spec c old) as [->|Hc].
  - apply Ascii.eqb_neq. congruence.
  - now apply Ascii.eqb_neq.
Qed.

(** A text without [old] is left as it is. *)
Lemma replace_absent (s : string) :
  urllib.mem_char old s = false → replace old new s = s.
Proof.
  induction s as [|c r IH]; simpl; [reflexivity|].
  intros H. apply orb_false_iff in H as [Hc Hr].
  rewrite Hc, IH by assumption. reflexivity.
Qed.

End Replace.

(** ** The extension registry *)

Section Registry.

Import Extensions.

Variable urlparse_scheme : string -> outcome string.

Local Abbreviation get := (Extensions.get urlparse_scheme).
Local Abbreviation lookup_key := (Extensions.lookup_key urlparse_scheme).

Lemma lookup_key_no_scheme (k : string) :
  urlparse_scheme k = Return "" → lookup_key k = Return (replace "-" "_" k).
Proof. intros H. unfold Extensions.lookup_key. now rewrite H. Qed.

Lemma lookup_key_scheme (k scheme : string) :
  urlparse_scheme k = Return scheme → scheme ≠ "" → lookup_key k = Return k.
Proof.
  intros H Hne. unfold Extensions.lookup_key. rewrite H. simpl.
  apply String.eqb_neq in Hne. now rewrite Hne.
Qed.

(** A key with a scheme, or without hyphen, is looked up as it is. *)
Lemma lookup_key_unchanged (k scheme : string) :
  urlparse_scheme k = Return scheme →
  scheme ≠ "" ∨ urllib.mem_char "-" k = false → lookup_key k = Return k.
Proof.
  intros Hs [Hne|Hno].
  - eapply lookup_key_scheme; eassumption.
  - destruct (String.eqb_spec scheme "") as [->|Hne].
    + rewrite (lookup_key_no_scheme _ Hs). now rewrite replace_absent.
    + eapply lookup_key_scheme; eassumption.
Qed.

Lemma get_urlparse_raises (cls : namespace) (k : string) (e : exn) :
  urlparse_scheme k = Raise e → get cls k = Raise e.
Proof.
  intros H. unfold Extensions.get, Extensions.lookup_key. now rewrite H.
Qed.

Lemma get_lookup (cls : namespace) (k k' : string) :
  lookup_key k = Return k' → get cls k = lookup cls k'.
Proof. intros H. unfold Extensions.get. now rewrite H. Qed.

(** The three ways [lookup] ends when the alias table is in place. *)
Lemma lookup_direct (cls : namespace) (k : string) (a : attr) :
  cls !! k = Some a → lookup cls k = Return a.
Proof. intros H. unfold lookup, getattr. now rewrite H. Qed.

Lemma lookup_alias (cls : namespace) (k name : string) (d : gmap string string) :
  cls !! k = None → cls !! "aliases" = Some (AliasTable d) →
  d !! k = Some name → lookup cls k = getattr cls name.
Proof. intros Hk Ha Hd. unfold lookup, getattr. now rewrite Hk, Ha, Hd. Qed.

Lemma lookup_unknown (cls : namespace) (k : string) (d : gmap string string) :
  cls !! k = None → cls !! "aliases" = Some (AliasTable d) → d !! k = None →
  lookup cls k = Raise (AttributeError ("Invalid extension name or alias: " +:+ k)).
Proof. intros Hk Ha Hd. unfold lookup, getattr. now rewrite Hk, Ha, Hd. Qed.

(** An alias whose name is not bound: the [AttributeError] of the inner
    [getattr] is not handled and carries Python's own message. *)
Lemma lookup_dangling_alias (cls : namespace) (k name : string)
    (d : gmap string string) :
  cls !! k = None → cls !! "aliases" = Some (AliasTable d) →
  d !! k = Some name → cls !! name = None →
  lookup cls k = Raise (AttributeError (no_attribute name)).
Proof.
  intros Hk Ha Hd Hn. rewrite (lookup_alias _ _ _ _ Hk Ha Hd).
  unfold getattr. now rewrite Hn.
Qed.

(** [register] when [setattr] refuses the name: nothing is changed. *)
Lemma register_refused (cls : namespace) (k : string) (v : model)
    (alias : option string) (e : exn) :
  setattr_error k = Some e → register cls k v alias = (Raise e, cls).
Proof. intros H. unfold register, setattr. now rewrite H. Qed.

(** [register] when [setattr] accepts the name. *)
Lemma register_accepted (cls : namespace) (k : string) (v : model)
    (alias : option string) :
  setattr_error k = None →
  register cls k v alias
  = match alias_given alias with
    | Some a =>
        match <[k := ExtensionModel v]> cls !! "aliases" with
        | Some (AliasTable d) =>
            (Return tt,
             <["aliases" := AliasTable (<[a := k]> d)]>
               (<[k := ExtensionModel v]> cls))
        | Some _ => (Raise TypeError, <[k := ExtensionModel v]> cls)
        | None => (Raise (AttributeError (no_attribute "aliases")),
                   <[k := ExtensionModel v]> cls)
        end
    | None => (Return tt, <[k := ExtensionModel v]> cls)
    end.
Proof.
  intros H. unfold register, setattr, getattr. rewrite H.
  destruct (alias_given alias) as [a|]; [|reflexivity].
  destruct (<[k := ExtensionModel v]> cls !! "aliases") as [[m|d|f]|];
    reflexivity.
Qed.



(** C8. A key without a URI scheme is looked up with every hyphen replaced
    by an underscore: the key that reaches the lookup has no hyphen left
    and agrees with the original at every other position. A key with a
    scheme is looked up as it is. *)
Theorem get_normalizes_unless_scheme (cls : namespace) (k scheme : string) :
  urlparse_scheme k = Return scheme →
  (scheme = "" →
     get cls k = lookup cls (replace "-" "_" k)
     ∧ urllib.mem_char "-" (replace "-" "_" k) = false
     ∧ String.length (replace "-" "_" k) = String.length k
     ∧ ∀ n, String.get n (replace "-" "_" k)
            = (fun c => if Ascii.eqb c "-" then "_"%char else c)
                <$> String.get n k)
  ∧ (scheme ≠ "" → get cls k = lookup cls k).
Proof.
  intros Hs. split.
  - intros ->. repeat split.
    + apply get_lookup, lookup_key_no_scheme, Hs.
    + apply replace_removes. discriminate.
    + apply replace_length.
    + apply replace_get.
  - intros Hne. apply get_lookup. eapply lookup_key_scheme; eassumption.
Qed.

(** C4, as amended. When the key that is looked up (the caller's key, with
    its hyphens replaced by underscores if it has no URI scheme) is neither
    an attribute of the registry nor a key of the alias table, [get] raises
    an [AttributeError] whose message is
    "Invalid extension name or alias: " followed by the key that was looked
    up. That key is the caller's own when it has a scheme or no hyphen. *)
Theorem get_unresolved_message (cls : namespace) (k scheme : string)
    (d : gmap string string) :
  urlparse_scheme k = Return scheme →
  let k' := if String.eqb scheme "" then replace "-" "_" k else k in
  cls !! k' = None → cls !! "aliases" = Some (AliasTable d) → d !! k' = None →
  get cls k
  = Raise (AttributeError ("Invalid extension name or alias: " +:+ k'))
  ∧ (scheme ≠ "" ∨ urllib.mem_char "-" k = false → k' = k).
Proof.
  intros Hs k' Hk Ha Hd. split.
  - assert (Hkey : lookup_key k = Return k').
    { subst k'. destruct (String.eqb_spec scheme "") as [->|Hne].
      - now apply lookup_key_no_scheme.
      - eapply lookup_key_scheme; eassumption. }
    rewrite (get_lookup _ _ _ Hkey). eapply lookup_unknown; eassumption.
  - subst k'. intros [Hne|Hno].
    + apply String.eqb_neq in Hne. now rewrite Hne.
    + destruct (String.eqb scheme ""); [|reflexivity].
      now apply replace_absent.
Qed.


(** Whatever is bound to the key that is looked up is returned, be it a
    model or not. *)
Lemma get_returns_any_attribute (cls : namespace) (k k' : string) (a : attr) :
  lookup_key k = Return k' → cls !! k' = Some a → get cls k = Return a.
Proof. intros Hk Ha. rewrite (get_lookup _ _ _ Hk). now apply lookup_direct. Qed.

End Registry.

(** *** The registry as the class body leaves it, with CPython's [urlparse] *)

Section RegistryExamples.

Import Extensions.

Local Abbreviation get := (Extensions.get urllib.urlparse_scheme).

Example get_item_assets :
  get builtins "item-assets"
  = Return (ExtensionModel (Model "ItemAssetExtension")).
Proof. vm_compute. reflexivity. Qed.

(** "point-cloud" is looked up as "point_cloud", in every namespace. *)
Example get_point_cloud (cls : namespace) :
  get cls "point-cloud" = get cls "point_cloud".
Proof. reflexivity. Qed.

(** A model registered under a URI is found under that URI, hyphens
    included. *)
Example get_uri_with_hyphen :
  get (register builtins "https://example.com/v1/my-ext/schema.json"
         (Model "MyExtension") None).2
      "https://example.com/v1/my-ext/schema.json"
  = Return (ExtensionModel (Model "MyExtension")).
Proof. vm_compute. reflexivity. Qed.

(** [urlparse] itself can raise, and [get] lets that through. *)
Example get_unbalanced_bracket :
  get builtins "//[x" = Raise (ValueError "Invalid IPv6 URL").
Proof. vm_compute. reflexivity. Qed.

Lemma get_normalizes_unless_scheme_witness :
  urllib.urlparse_scheme "point-cloud" = Return ""
  ∧ get builtins "point-cloud" = lookup builtins "point_cloud".
Proof.
  split; [reflexivity|].
  destruct (get_normalizes_unless_scheme urllib.urlparse_scheme builtins
              "point-cloud" "" eq_refl) as [H _].
  destruct (H eq_refl) as [Hget _]. exact Hget.
Defined.

(** C4, counterexample. The key "no-such-ext" does not resolve, and the
    message of the error carries "no_such_ext", not the caller's key. *)
Lemma get_message_has_normalized_key :
  get builtins "no-such-ext"
  = Raise (AttributeError "Invalid extension name or alias: no_such_ext")
  ∧ get builtins "no-such-ext"
    ≠ Raise (AttributeError
               ("Invalid extension name or alias: " +:+ "no-such-ext")).
Proof. split; vm_compute; [reflexivity | discriminate]. Qed.

Lemma get_unresolved_message_witness :
  urllib.urlparse_scheme "no-such-ext" = Return ""
  ∧ builtins !! "no_such_ext" = None
  ∧ builtins !! "aliases" = Some (AliasTable ∅)
  ∧ (∅ : gmap string string) !! "no_such_ext" = None
  ∧ get builtins "no-such-ext"
    = Raise (AttributeError "Invalid extension name or alias: no_such_ext").
Proof.
  refine (conj eq_refl (conj eq_refl (conj eq_refl (conj eq_refl _)))).
  exact (proj1 (get_unresolved_message urllib.urlparse_scheme builtins
                  "no-such-ext" "" ∅ eq_refl eq_refl eq_refl eq_refl)).
Defined.


(** The alias of a name with a hyphen still leads to the model. *)
Example get_alias_of_hyphenated_name :
  get (register builtins "point-cloud" (Model "PointCloud2") (Some "pc")).2
      "pc"
  = Return (ExtensionModel (Model "PointCloud2")).
Proof. vm_compute. reflexivity. Qed.


(** C10. The keys "aliases", "register" and "get" are no registered
    extension (no model is bound to them) and no alias (the alias table is
    empty), and [get] returns the alias table and the two class methods
    for them instead of raising. *)
Theorem get_returns_other_class_attributes :
  get builtins "aliases" = Return (AliasTable ∅)
  ∧ get builtins "register" = Return (ClassMethod "register")
  ∧ get builtins "get" = Return (ClassMethod "get")
  ∧ Forall (fun k => ∀ m, builtins !! k ≠ Some (ExtensionModel m)
                         ∧ (∅ : gmap string string) !! k = None)
           ["aliases"; "register"; "get"].
Proof.
  split; [vm_compute; reflexivity|].
  split; [vm_compute; reflexivity|].
  split; [vm_compute; reflexivity|].
  repeat (constructor;
          [intros m; split; vm_compute; (discriminate || reflexivity)|]).
  constructor.
Qed.

End RegistryExamples.

(** ** The datetime validator *)

Section DatetimeValidator.

Import item.

Variable parse_datetime : string -> outcome datetime.

Local Abbreviation validate_datetime := (item.validate_datetime parse_datetime).
Local Abbreviation parse_if_str := (item.parse_if_str parse_datetime).

Lemma eq_str_false (v : value) (s : string) : v ≠ VStr s → eq_str v s = false.
Proof.
  destruct v as [| | |s'| | |]; try reflexivity.
  intros Hne. apply String.eqb_neq. congruence.
Qed.

Lemma validate_datetime_other (v : value) (values : gmap string value) :
  v ≠ VStr "null" → validate_datetime v values = parse_if_str v.
Proof.
  intros Hne. unfold item.validate_datetime.
  rewrite (eq_str_false _ _ Hne). reflexivity.
Qed.

(** The guard passes as soon as [start_datetime] is truthy; [end_datetime]
    is not looked at. *)
Lemma validate_datetime_null_start (values : gmap string value) (s : value) :
  values !! "start_datetime" = Some s → truthy s = true →
  validate_datetime (VStr "null") values = parse_if_str (VStr "null").
Proof.
  intros Hs Ht. unfold item.validate_datetime, getitem. simpl.
  rewrite Hs. simpl. rewrite Ht. reflexivity.
Qed.

(** With a falsy [start_datetime], the guard passes when [end_datetime] is
    truthy. *)
Lemma validate_datetime_null_end (values : gmap string value) (s e : value) :
  values !! "start_datetime" = Some s → truthy s = false →
  values !! "end_datetime" = Some e → truthy e = true →
  validate_datetime (VStr "null") values = parse_if_str (VStr "null").
Proof.
  intros Hs Hts He Hte. unfold item.validate_datetime, getitem. simpl.
  rewrite Hs. simpl. rewrite Hts. simpl. rewrite He. simpl. rewrite Hte.
  reflexivity.
Qed.

(** The guard raises when both are falsy. *)
Lemma validate_datetime_null_no_range (values : gmap string value) (s e : value) :
  values !! "start_datetime" = Some s → truthy s = false →
  values !! "end_datetime" = Some e → truthy e = false →
  validate_datetime (VStr "null") values = Raise (ValueError range_required).
Proof.
  intros Hs Hts He Hte. unfold item.validate_datetime, getitem. simpl.
  rewrite Hs. simpl. rewrite Hts. simpl. rewrite He. simpl. rewrite Hte.
  reflexivity.
Qed.

(** A field that failed its own validation is missing from [values]. *)
Lemma validate_datetime_null_missing_start (values : gmap string value) :
  values !! "start_datetime" = None →
  validate_datetime (VStr "null") values = Raise (KeyError "start_datetime").
Proof.
  intros Hs. unfold item.validate_datetime, getitem. simpl. now rewrite Hs.
Qed.

(** C1, the code at the failing input. With [datetime] equal to "null" and
    both ends of the range set, the validator goes on to parse the text
    "null" and raises the parser's error; it does not return "null". *)
Theorem validate_datetime_null_with_range (values : gmap string value)
    (s e : value) (err : exn) :
  values !! "start_datetime" = Some s → truthy s = true →
  values !! "end_datetime" = Some e → truthy e = true →
  parse_datetime "null" = Raise err →
  validate_datetime (VStr "null") values = Raise err.
Proof.
  intros Hs Hts _ _ Hp.
  rewrite (validate_datetime_null_start _ _ Hs Hts). simpl.
  now rewrite Hp.
Qed.

(** C2, the code at the failing input. With [datetime] equal to "null" and
    exactly one end of the range set, the guard does not raise its
    [ValueError]: the validator goes on to parse the text "null" and
    raises the parser's error. *)
Theorem validate_datetime_null_half_range (values : gmap string value)
    (s e : value) (err : exn) :
  values !! "start_datetime" = Some s →
  values !! "end_datetime" = Some e →
  xorb (truthy s) (truthy e) = true →
  parse_datetime "null" = Raise err →
  validate_datetime (VStr "null") values = Raise err.
Proof.
  intros Hs He Hx Hp.
  assert (H : validate_datetime (VStr "null") values
              = parse_if_str (VStr "null")).
  { destruct (truthy s) eqn:Hts.
    - eapply validate_datetime_null_start; eassumption.
    - destruct (truthy e) eqn:Hte; [|discriminate].
      eapply validate_datetime_null_end; eassumption. }
  rewrite H. simpl. now rewrite Hp.
Qed.

(** C7. For a value other than the text "null": a text is handed to the
    parser, whose value is returned and whose error is raised as it is; a
    value that is not a text is returned unchanged. *)
Theorem validate_datetime_parses_text (v : value) (values : gmap string value) :
  v ≠ VStr "null" →
  (∀ s d, v = VStr s → parse_datetime s = Return d →
          validate_datetime v values = Return (VDatetime d))
  ∧ (∀ s err, v = VStr s → parse_datetime s = Raise err →
              validate_datetime v values = Raise err)
  ∧ (is_str v = false → validate_datetime v values = Return v).
Proof.
  intros Hne. rewrite (validate_datetime_other _ _ Hne).
  repeat split.
  - intros s d -> Hp. simpl. now rewrite Hp.
  - intros s err -> Hp. simpl. now rewrite Hp.
  - destruct v; try reflexivity. discriminate.
Qed.

End DatetimeValidator.

(** *** The validator with pydantic's parser for text *)

Section DatetimeExamples.

Import item samples.

Local Abbreviation validate_datetime :=
  (item.validate_datetime datetime_parse.parse_datetime).

Example validate_datetime_no_range :
  validate_datetime (VStr "null") no_range = Raise (ValueError range_required).
Proof. vm_compute. reflexivity. Qed.

Example validate_datetime_end_only :
  validate_datetime (VStr "null") end_only = Raise DateTimeError.
Proof. vm_compute. reflexivity. Qed.

Example validate_datetime_not_a_date :
  validate_datetime (VStr "not-a-date") no_range = Raise DateTimeError.
Proof. vm_compute. reflexivity. Qed.

Example validate_datetime_structured :
  validate_datetime (VDatetime jan_2) no_range = Return (VDatetime jan_2).
Proof. vm_compute. reflexivity. Qed.

Lemma validate_datetime_null_with_range_witness :
  full_range !! "start_datetime" = Some (VDatetime jan_1)
  ∧ truthy (VDatetime jan_1) = true
  ∧ full_range !! "end_datetime" = Some (VDatetime jan_2)
  ∧ truthy (VDatetime jan_2) = true
  ∧ datetime_parse.parse_datetime "null" = Raise DateTimeError
  ∧ validate_datetime (VStr "null") full_range = Raise DateTimeError.
Proof.
  refine (conj eq_refl (conj eq_refl (conj eq_refl (conj eq_refl
            (conj eq_refl _))))).
  exact (validate_datetime_null_with_range datetime_parse.parse_datetime
           full_range (VDatetime jan_1) (VDatetime jan_2) DateTimeError
           eq_refl eq_refl eq_refl eq_refl eq_refl).
Defined.

Lemma validate_datetime_null_half_range_witness :
  start_only !! "start_datetime" = Some (VDatetime jan_1)
  ∧ start_only !! "end_datetime" = Some VNone
  ∧ xorb (truthy (VDatetime jan_1)) (truthy VNone) = true
  ∧ datetime_parse.parse_datetime "null" = Raise DateTimeError
  ∧ validate_datetime (VStr "null") start_only = Raise DateTimeError
  ∧ Raise DateTimeError ≠ (Raise (ValueError range_required) : outcome value).
Proof.
  refine (conj eq_refl (conj eq_refl (conj eq_refl (conj eq_refl
            (conj _ _))))).
  - exact (validate_datetime_null_half_range datetime_parse.parse_datetime
             start_only (VDatetime jan_1) VNone DateTimeError
             eq_refl eq_refl eq_refl eq_refl).
  - discriminate.
Defined.

Lemma validate_datetime_parses_text_witness :
  VStr "2020-01-01T00:00:00Z" ≠ VStr "null"
  ∧ datetime_parse.parse_datetime "2020-01-01T00:00:00Z" = Return jan_1
  ∧ validate_datetime (VStr "2020-01-01T00:00:00Z") no_range
    = Return (VDatetime jan_1).
Proof.
  assert (Hne : VStr "2020-01-01T00:00:00Z" ≠ VStr "null") by discriminate.
  refine (conj Hne (conj eq_refl _)).
  exact (proj1 (validate_datetime_parses_text datetime_parse.parse_datetime
                  (VStr "2020-01-01T00:00:00Z") no_range Hne)
               "2020-01-01T00:00:00Z" jan_1 eq_refl eq_refl).
Defined.

End DatetimeExamples.

(** ** Item validation *)

Section ItemValidation.

Import item.

Context {World Response : Type}.
Variable Item_parse_obj : gmap string value -> outcome unit.
Variable requests_get : value -> io World Response.
Variable Response_json : Response -> outcome value.
Variable jsonschema_validate : gmap string value -> value -> io World unit.

Local Abbreviation validate_extension :=
  (item.validate_extension requests_get Response_json jsonschema_validate).
Local Abbreviation validate_item_try :=
  (item.validate_item_try Item_parse_obj requests_get Response_json
     jsonschema_validate).
Local Abbreviation validate_item :=
  (item.validate_item Item_parse_obj requests_get Response_json
     jsonschema_validate).

Ltac run_io :=
  unfold item.validate_item_try, item.validate_extension, mbind, mret,
    io_mbind, io_mret, io_bind, io_ret, lift, getitem.

(** The [try] block ends at the first statement that raises. *)
Lemma try_parse_obj_raises (doc : gmap string value) (e : exn) (w : World) :
  Item_parse_obj doc = Raise e → validate_item_try doc w = (Raise e, w).
Proof. intros H. run_io. now rewrite H. Qed.

Lemma try_missing_key (doc : gmap string value) (w : World) :
  Item_parse_obj doc = Return tt → doc !! "stac_extensions" = None →
  validate_item_try doc w = (Raise (KeyError "stac_extensions"), w).
Proof. intros Hp Hk. run_io. now rewrite Hp, Hk. Qed.

Lemma try_no_extensions (doc : gmap string value) (exts : value) (w : World) :
  Item_parse_obj doc = Return tt → doc !! "stac_extensions" = Some exts →
  truthy exts = false → validate_item_try doc w = (Return tt, w).
Proof. intros Hp Hk Ht. run_io. now rewrite Hp, Hk, Ht. Qed.

Lemma try_extensions (doc : gmap string value) (exts : value)
    (l : list value) (w : World) :
  Item_parse_obj doc = Return tt → doc !! "stac_extensions" = Some exts →
  truthy exts = true → iter exts = Return l →
  validate_item_try doc w = for_each (validate_extension doc) l w.
Proof. intros Hp Hk Ht Hi. run_io. now rewrite Hp, Hk, Ht, Hi. Qed.

(** One extension: a failed request, a body that is not JSON, and the
    verdict of the schema validator on the raw document. *)
Lemma validate_extension_request_raises (doc : gmap string value)
    (ext : value) (w w' : World) (e : exn) :
  requests_get ext w = (Raise e, w') →
  validate_extension doc ext w = (Raise e, w').
Proof. intros H. run_io. now rewrite H. Qed.

Lemma validate_extension_json_raises (doc : gmap string value)
    (ext : value) (req : Response) (w w' : World) (e : exn) :
  requests_get ext w = (Return req, w') → Response_json req = Raise e →
  validate_extension doc ext w = (Raise e, w').
Proof. intros H Hj. run_io. now rewrite H, Hj. Qed.

Lemma validate_extension_schema (doc : gmap string value)
    (ext schema : value) (req : Response) (w w' : World) :
  requests_get ext w = (Return req, w') → Response_json req = Return schema →
  validate_extension doc ext w = jsonschema_validate doc schema w'.
Proof. intros H Hj. run_io. now rewrite H, Hj. Qed.

(** The loop stops at the first extension whose validation raises. *)
Lemma for_each_first_failure (body : value -> io World unit)
    (before after : list value) (x : value) (w w1 w2 : World) (e : exn) :
  for_each body before w = (Return tt, w1) → body x w1 = (Raise e, w2) →
  for_each body (before ++ x :: after) w = (Raise e, w2).
Proof.
  revert w. induction before as [|y before IH]; intros w; simpl.
  - intros [= <-] Hx. unfold mbind, io_mbind, io_bind. now rewrite Hx.
  - unfold mbind, io_mbind, io_bind in *.
    destruct (body y w) as [[[]|e'] w'] eqn:Hy; [|discriminate].
    intros Hrest Hx. now apply IH.
Qed.

(** [validate_item] returns [True] exactly when the [try] block ends
    without raising. *)
Lemma validate_item_true_iff (doc : gmap string value) (reraise : bool)
    (w w' : World) :
  validate_item doc reraise w = (Return true, w')
  ↔ validate_item_try doc w = (Return tt, w').
Proof.
  unfold item.validate_item.
  destruct (validate_item_try doc w) as [[[]|e] w1].
  - split; intros [= <-]; reflexivity.
  - split; [|discriminate].
    destruct (is_Exception e), reraise; discriminate.
Qed.

(** X19. A document that passes shape validation and binds
    [stac_extensions] to [None] or to an empty sequence is valid, and no
    request is made: the world is as before. *)
Lemma validate_item_no_extensions (doc : gmap string value) (exts : value)
    (reraise : bool) (w : World) :
  Item_parse_obj doc = Return tt → doc !! "stac_extensions" = Some exts →
  truthy exts = false → validate_item doc reraise w = (Return true, w).
Proof.
  intros Hp Hk Ht. apply validate_item_true_iff.
  exact (try_no_extensions doc exts w Hp Hk Ht).
Qed.

(** C3, the code at the failing input. For a document that passes shape
    validation and has no [stac_extensions] key, the subscript raises
    [KeyError]: [validate_item] returns [False], and re-raises the
    [KeyError] when asked to. *)
Theorem validate_item_missing_key (doc : gmap string value) (w : World) :
  Item_parse_obj doc = Return tt → doc !! "stac_extensions" = None →
  validate_item doc false w = (Return false, w)
  ∧ validate_item doc true w = (Raise (KeyError "stac_extensions"), w).
Proof.
  intros Hp Hk. unfold item.validate_item.
  rewrite (try_missing_key _ w Hp Hk). split; reflexivity.
Qed.

(** The handler, lines 94 to 97, on an exception of the [try] block. *)
Lemma validate_item_try_raises (doc : gmap string value) (w w' : World)
    (e : exn) :
  validate_item_try doc w = (Raise e, w') → is_Exception e = true →
  validate_item doc false w = (Return false, w')
  ∧ validate_item doc true w = (Raise e, w').
Proof.
  intros Htry He. unfold item.validate_item. rewrite Htry, He.
  split; reflexivity.
Qed.

(** The loop returns on a list of extensions the document is valid
    against. *)
Lemma for_each_extensions_valid (doc : gmap string value) (l : list value)
    (w w' : World) :
  item_failures.extensions_valid requests_get Response_json
    jsonschema_validate doc l w w' →
  for_each (validate_extension doc) l w = (Return tt, w').
Proof.
  induction 1 as [|ext l w w1 w2 (req & w0 & schema & Hget & Hjson & Hval) _ IH];
    [reflexivity|].
  simpl. unfold mbind, io_mbind, io_bind.
  rewrite (validate_extension_schema _ _ _ _ _ _ Hget Hjson), Hval.
  exact IH.
Qed.

(** The body of the loop raises the exception an extension fails by. *)
Lemma validate_extension_fails (doc : gmap string value) (ext : value)
    (w w' : World) (e : exn) :
  item_failures.extension_fails requests_get Response_json
    jsonschema_validate doc ext w e w' →
  validate_extension doc ext w = (Raise e, w').
Proof.
  intros [e0 w0 Hget|req e0 w0 Hget Hjson|req schema e0 w1 w0 Hget Hjson Hval].
  - now apply validate_extension_request_raises.
  - now apply validate_extension_json_raises with (req := req).
  - now rewrite (validate_extension_schema _ _ _ _ _ _ Hget Hjson).
Qed.

(** The [try] block raises the exception by which validation fails. *)
Lemma try_validation_fails (doc : gmap string value) (w w' : World) (e : exn) :
  item_failures.validation_fails Item_parse_obj requests_get Response_json
    jsonschema_validate doc w e w' →
  validate_item_try doc w = (Raise e, w').
Proof.
  intros [e0 Hp|before after ext e0 w1 w0 Hp Hk Hbefore Hfails].
  - now apply try_parse_obj_raises.
  - rewrite (try_extensions _ (VList (before ++ ext :: after))
               (before ++ ext :: after) w Hp Hk).
    + apply for_each_first_failure with (w1 := w1).
      * now apply for_each_extensions_valid.
      * now apply validate_extension_fails.
    + now destruct before.
    + reflexivity.
Qed.

(** C6. When validation of a document fails, be it by a construction
    error, a network error, a malformed schema or a schema mismatch, and
    [e] is the first exception met (everything before it has succeeded),
    [validate_item] without [reraise_exception] returns [False] and does
    not raise, and with [reraise_exception] it raises that same [e]. Both
    leave the world as the failing step has left it. *)
Theorem validate_item_error_policy (doc : gmap string value) (w w' : World)
    (e : exn) :
  item_failures.validation_fails Item_parse_obj requests_get Response_json
    jsonschema_validate doc w e w' →
  is_Exception e = true →
  validate_item doc false w = (Return false, w')
  ∧ validate_item doc true w = (Raise e, w').
Proof.
  intros Hfails He. apply validate_item_try_raises; [|exact He].
  now apply try_validation_fails.
Qed.

(** Without [reraise_exception] no [Exception] leaves [validate_item]. *)
Lemma validate_item_no_raise (doc : gmap string value) (w : World) :
  (∃ b w', validate_item doc false w = (Return b, w'))
  ∨ (∃ e w', validate_item doc false w = (Raise e, w')
             ∧ is_Exception e = false).
Proof.
  unfold item.validate_item.
  destruct (validate_item_try doc w) as [[[]|e] w1]; [left; eauto|].
  destruct (is_Exception e) eqn:He; [left; eauto | right; eauto].
Qed.

End ItemValidation.

(** *** Item validation without network *)

Section ItemValidationExamples.

Import item samples.

Local Abbreviation validate_item :=
  (item.validate_item parse_obj_required offline_get json_body accept_schema).
Local Abbreviation validate_item_try :=
  (item.validate_item_try parse_obj_required offline_get json_body
     accept_schema).

(** The request for the declared schema fails, and is the only one made. *)
Example validate_item_offline :
  validate_item item_with_extension false []
  = (Return false, [VStr "https://example.com/ext/schema.json"])
  ∧ validate_item item_with_extension true []
    = (Raise (RequestException "connection refused"),
       [VStr "https://example.com/ext/schema.json"]).
Proof. split; vm_compute; reflexivity. Qed.

Example validate_item_empty_extensions :
  validate_item (<["stac_extensions" := VList []]> plain_item) false []
  = (Return true, []).
Proof. vm_compute. reflexivity. Qed.

Lemma validate_item_missing_key_witness :
  parse_obj_required plain_item = Return tt
  ∧ plain_item !! "stac_extensions" = None
  ∧ validate_item plain_item false [] = (Return false, [])
  ∧ validate_item plain_item true []
    = (Raise (KeyError "stac_extensions"), []).
Proof.
  refine (conj eq_refl (conj eq_refl _)).
  exact (validate_item_missing_key parse_obj_required offline_get json_body
           accept_schema plain_item [] eq_refl eq_refl).
Defined.

(** The four kinds of failure on sample documents. *)
Example validate_item_construction_error :
  validate_item item_without_id false [] = (Return false, [])
  ∧ validate_item item_without_id true []
    = (Raise (ValidationError "id: field required"), []).
Proof. split; vm_compute; reflexivity. Qed.

Example validate_item_malformed_body :
  item.validate_item parse_obj_required more_samples.online_get
    more_samples.broken_json accept_schema item_with_extension true []
  = (Raise JSONDecodeError, [VStr "https://example.com/ext/schema.json"]).
Proof. vm_compute. reflexivity. Qed.

Example validate_item_schema_mismatch :
  item.validate_item parse_obj_required more_samples.online_get json_body
    more_samples.reject_schema item_with_extension true []
  = (Raise (SchemaValidationError "does not match the schema"),
     [VStr "https://example.com/ext/schema.json"]).
Proof. vm_compute. reflexivity. Qed.

Lemma validate_item_error_policy_witness :
  item_failures.validation_fails parse_obj_required offline_get json_body
    accept_schema item_with_extension []
    (RequestException "connection refused")
    [VStr "https://example.com/ext/schema.json"]
  ∧ is_Exception (RequestException "connection refused") = true
  ∧ validate_item item_with_extension false []
    = (Return false, [VStr "https://example.com/ext/schema.json"])
  ∧ validate_item item_with_extension true []
    = (Raise (RequestException "connection refused"),
       [VStr "https://example.com/ext/schema.json"]).
Proof.
  assert (Hfails : item_failures.validation_fails parse_obj_required
                     offline_get json_body accept_schema item_with_extension
                     [] (RequestException "connection refused")
                     [VStr "https://example.com/ext/schema.json"]).
  { apply (item_failures.extension_error _ _ _ _ _ _ [] []
             (VStr "https://example.com/ext/schema.json") _ []).
    - reflexivity.
    - reflexivity.
    - constructor.
    - apply item_failures.network_error. reflexivity. }
  exact (conj Hfails (conj eq_refl
           (validate_item_error_policy parse_obj_required offline_get
              json_body accept_schema item_with_extension []
              [VStr "https://example.com/ext/schema.json"]
              (RequestException "connection refused") Hfails eq_refl))).
Defined.

End ItemValidationExamples.

(** ** The registry over sequences of registrations *)

Section RegistryStates.

Import Extensions registry_state.

Variable urlparse_scheme : string -> outcome string.

Local Abbreviation get := (Extensions.get urlparse_scheme).
Local Abbreviation lookup_key := (Extensions.lookup_key urlparse_scheme).

(** The namespace a call of [register] leaves behind, in closed form. *)
Lemma register_state (cls : namespace) (k : string) (v : model)
    (alias : option string) :
  setattr_error k = None →
  (register cls k v alias).2
  = match alias_given alias, alias_table (<[k := ExtensionModel v]> cls) with
    | Some a, Some d =>
        <["aliases" := AliasTable (<[a := k]> d)]>
          (<[k := ExtensionModel v]> cls)
    | _, _ => <[k := ExtensionModel v]> cls
    end.
Proof.
  intros Hs. rewrite (register_accepted _ _ _ _ Hs). unfold alias_table.
  destruct (alias_given alias) as [a|]; [|reflexivity].
  destruct (<[k := ExtensionModel v]> cls !! "aliases") as [[m|d|f]|];
    reflexivity.
Qed.

Lemma register_state_refused (cls : namespace) (k : string) (v : model)
    (alias : option string) (e : exn) :
  setattr_error k = Some e → (register cls k v alias).2 = cls.
Proof. intros Hs. now rewrite (register_refused _ _ _ _ _ Hs). Qed.

Lemma register_binds_name (cls : namespace) (k : string) (v : model)
    (alias : option string) :
  setattr_error k = None →
  (register cls k v alias).2 !! k = Some (ExtensionModel v).
Proof.
  intros Hs. rewrite (register_state _ _ _ _ Hs).
  destruct (alias_given alias) as [a|]; [|apply lookup_insert_eq].
  destruct (alias_table _) as [d|] eqn:Hd; [|apply lookup_insert_eq].
  destruct (decide (k = "aliases")) as [->|Hk].
  - unfold alias_table in Hd. rewrite lookup_insert_eq in Hd. discriminate.
  - rewrite lookup_insert_ne by done. apply lookup_insert_eq.
Qed.

Lemma register_other_names (cls : namespace) (k n : string) (v : model)
    (alias : option string) :
  n ≠ k → n ≠ "aliases" → (register cls k v alias).2 !! n = cls !! n.
Proof.
  intros Hk Ha. destruct (setattr_error k) as [e|] eqn:Hs.
  { now rewrite (register_state_refused _ _ _ _ _ Hs). }
  rewrite (register_state _ _ _ _ Hs).
  destruct (alias_given alias) as [a|];
    [destruct (alias_table _) as [d|]|];
    rewrite ?lookup_insert_ne by done; reflexivity.
Qed.

(** [register] removes no name from the namespace, whether it completes
    or raises. *)
Lemma register_keeps_names (cls : namespace) (k n : string) (v : model)
    (alias : option string) :
  is_Some (cls !! n) → is_Some ((register cls k v alias).2 !! n).
Proof.
  intros Hn. destruct (setattr_error k) as [e|] eqn:Hs.
  { now rewrite (register_state_refused _ _ _ _ _ Hs). }
  destruct (decide (n = k)) as [->|Hk].
  - rewrite (register_binds_name _ _ _ _ Hs). eauto.
  - destruct (decide (n = "aliases")) as [->|Ha].
    + rewrite (register_state _ _ _ _ Hs).
      destruct (alias_given alias) as [a|];
        [destruct (alias_table _) as [d|]|];
        rewrite ?lookup_insert_eq, ?lookup_insert_ne by done; eauto.
    + now rewrite register_other_names.
Qed.

(** The alias table after a call: one binding more when an alias is given
    and the call completes, the same table otherwise. *)
Lemma register_alias_table (cls : namespace) (k : string) (v : model)
    (alias : option string) (d' : gmap string string) :
  alias_table (register cls k v alias).2 = Some d' →
  ∃ d, alias_table cls = Some d
       ∧ (d' = d
          ∨ ∃ a, setattr_error k = None ∧ alias_given alias = Some a
                 ∧ d' = <[a := k]> d).
Proof.
  destruct (setattr_error k) as [e|] eqn:Hs.
  { rewrite (register_state_refused _ _ _ _ _ Hs). eauto. }
  rewrite (register_state _ _ _ _ Hs). unfold alias_table at 2 3.
  destruct (decide (k = "aliases")) as [->|Hk].
  - rewrite lookup_insert_eq.
    destruct (alias_given alias); unfold alias_table;
      rewrite lookup_insert_eq; discriminate.
  - rewrite lookup_insert_ne by done.
    destruct (alias_given alias) as [a|].
    + destruct (cls !! "aliases") as [[m|d|f]|] eqn:Hal;
        unfold alias_table;
        rewrite ?lookup_insert_eq, ?lookup_insert_ne, ?Hal by done;
        try discriminate.
      intros [= <-]. exists d. split; [reflexivity|]. right. eauto.
    + unfold alias_table. rewrite lookup_insert_ne by done.
      destruct (cls !! "aliases") as [[m|d|f]|]; try discriminate.
      intros [= <-]. exists d. split; [reflexivity|]. now left.
Qed.

(** X1. Every name that the class body binds (the twelve extensions,
    [aliases], [register], [get]) is still bound after any sequence of
    registrations: [register] rebinds names and never removes one. *)
Theorem reachable_keeps_builtins (cls : namespace) (n : string) :
  reachable cls → is_Some (builtins !! n) → is_Some (cls !! n).
Proof.
  intros Hr Hn. induction Hr as [|cls k v alias _ IH]; [exact Hn|].
  now apply register_keeps_names.
Qed.

Lemma builtins_aliases_bound : aliases_bound builtins.
Proof.
  intros d a k.
  replace (alias_table builtins) with (Some (∅ : gmap string string))
    by (vm_compute; reflexivity).
  intros [= <-]. rewrite lookup_empty. discriminate.
Qed.

(** One registration keeps every alias bound: the aliases of before name
    attributes that stay, and the new alias names the new attribute. *)
Lemma register_keeps_aliases_bound (cls : namespace) (k : string) (v : model)
    (alias : option string) :
  aliases_bound cls → aliases_bound (register cls k v alias).2.
Proof.
  intros IH d' a0 k0 Htab Hd'.
  destruct (register_alias_table _ _ _ _ _ Htab)
    as (d & Hd & [->|(a & Hs & Ha & ->)]).
  - apply register_keeps_names. eapply IH; eassumption.
  - destruct (decide (a0 = a)) as [->|Hne].
    + rewrite lookup_insert_eq in Hd'. injection Hd' as <-.
      rewrite (register_binds_name _ _ _ _ Hs). eauto.
    + rewrite lookup_insert_ne in Hd' by done.
      apply register_keeps_names. eapply IH; eassumption.
Qed.


(** X2. After any sequence of registrations, every alias in the alias
    table names an attribute of the class: no alias dangles. *)
Theorem reachable_aliases_bound (cls : namespace) :
  reachable cls → aliases_bound cls.
Proof.
  induction 1 as [|cls k v alias _ IH].
  - apply builtins_aliases_bound.
  - now apply register_keeps_aliases_bound.
Qed.


(** X4. In a namespace that has its alias table, a registration under a
    name other than "aliases" goes one of two ways. When [setattr] refuses
    the name (one of the special attributes of a class), the call raises
    that error and changes nothing. Otherwise it completes, and the alias
    table afterwards is the one before with the binding from the alias to
    the name added (unchanged when no alias is given). *)
Theorem register_completes (cls : namespace) (k : string) (v : model)
    (alias : option string) (d : gmap string string) :
  alias_table cls = Some d → k ≠ "aliases" →
  match setattr_error k with
  | Some e => register cls k v alias = (Raise e, cls)
  | None =>
      ∃ cls', register cls k v alias = (Return tt, cls')
              ∧ alias_table cls'
                = Some match alias_given alias with
                       | Some a => <[a := k]> d
                       | None => d
                       end
  end.
Proof.
  unfold alias_table. intros Hd Hk.
  destruct (setattr_error k) as [e|] eqn:Hs; [now apply register_refused|].
  destruct (cls !! "aliases") as [[m|d0|f]|] eqn:Hal; try discriminate.
  injection Hd as ->.
  rewrite (register_accepted _ _ _ _ Hs).
  destruct (alias_given alias) as [a|].
  - rewrite lookup_insert_ne, Hal by done. eexists. split; [reflexivity|].
    now rewrite lookup_insert_eq.
  - eexists. split; [reflexivity|]. now rewrite lookup_insert_ne, Hal by done.
Qed.

(** X5. A registration under the name "aliases" replaces the alias table by
    the model. With an alias the call raises [TypeError], after the name
    has been rebound. Afterwards [get] raises [TypeError] for every key
    that is looked up and is not an attribute of the class. *)
Theorem register_aliases_replaces_table (cls : namespace) (v : model)
    (alias : option string) :
  (register cls "aliases" v alias).2 = <["aliases" := ExtensionModel v]> cls
  ∧ (register cls "aliases" v alias).1
    = match alias_given alias with
      | Some _ => Raise TypeError
      | None => Return tt
      end
  ∧ ∀ k k', lookup_key k = Return k' →
            (register cls "aliases" v alias).2 !! k' = None →
            get (register cls "aliases" v alias).2 k = Raise TypeError.
Proof.
  assert (Hst : (register cls "aliases" v alias).2
                = <["aliases" := ExtensionModel v]> cls).
  { rewrite register_state by reflexivity.
    unfold alias_table. rewrite lookup_insert_eq.
    now destruct (alias_given alias). }
  split; [exact Hst|]. split.
  - rewrite register_accepted by reflexivity. rewrite lookup_insert_eq.
    now destruct (alias_given alias).
  - intros k k' Hk. rewrite Hst. intros Hnone.
    rewrite (get_lookup _ _ _ _ Hk). unfold lookup, getattr.
    now rewrite Hnone, lookup_insert_eq.
Qed.



(** X8. Two keys without URI scheme that differ only in hyphens against
    underscores are the same key to [get]. *)
Theorem get_hyphen_underscore (cls : namespace) (k1 k2 : string) :
  urlparse_scheme k1 = Return "" → urlparse_scheme k2 = Return "" →
  replace "-" "_" k1 = replace "-" "_" k2 →
  get cls k1 = get cls k2.
Proof.
  intros H1 H2 Heq.
  rewrite (get_lookup _ _ _ _ (lookup_key_no_scheme _ _ H1)).
  rewrite (get_lookup _ _ _ _ (lookup_key_no_scheme _ _ H2)).
  now rewrite Heq.
Qed.

End RegistryStates.

(** ** More on the datetime validator *)

Section DatetimeValidatorMore.

Import item.

Variable parse_datetime : string -> outcome datetime.

Local Abbreviation validate_datetime := (item.validate_datetime parse_datetime).

(** A text that the validator accepts comes back as the parser's value. *)
Lemma validate_datetime_str (s : string) (values : gmap string value)
    (r : value) :
  validate_datetime (VStr s) values = Return r →
  ∃ d, parse_datetime s = Return d ∧ r = VDatetime d.
Proof.
  unfold item.validate_datetime, getitem, mbind, outcome_bind, mret,
    outcome_ret, fmap, outcome_fmap, Py.bind.
  intros H. destruct (parse_datetime s) as [d|e].
  - exists d. split; [reflexivity|].
    repeat case_match; simplify_eq; reflexivity.
  - repeat case_match; simplify_eq.
Qed.

(** X9. What the validator returns is never a text: a text that is accepted
    comes back as the parser's structured value, and anything else comes
    back as it is. *)
Theorem validate_datetime_never_returns_text (v r : value)
    (values : gmap string value) :
  validate_datetime v values = Return r → is_str r = false.
Proof.
  destruct v as [| | |s| | |];
    try (intros [= <-]; reflexivity).
  intros H. destruct (validate_datetime_str _ _ _ H) as (d & _ & ->).
  reflexivity.
Qed.

(** X10. A validated value passes the validator again unchanged, whatever
    the sibling fields are then. *)
Theorem validate_datetime_revalidate (v r : value)
    (values values' : gmap string value) :
  validate_datetime v values = Return r →
  validate_datetime r values' = Return r.
Proof.
  destruct v as [| | |s| | |];
    try (intros [= <-]; reflexivity).
  intros H. destruct (validate_datetime_str _ _ _ H) as (d & _ & ->).
  reflexivity.
Qed.

(** X11. With a parser that rejects the text "null", the validator raises on
    the value "null" whatever the sibling fields are: the [KeyError] of a
    field that is missing from [values], the [ValueError] of the guard, or
    the parser's error. *)
Theorem validate_datetime_null_always_raises (values : gmap string value)
    (err : exn) :
  parse_datetime "null" = Raise err →
  ∃ e, validate_datetime (VStr "null") values = Raise e
       ∧ (e = KeyError "start_datetime" ∨ e = KeyError "end_datetime"
          ∨ e = ValueError range_required ∨ e = err).
Proof.
  intros Hp.
  unfold item.validate_datetime, getitem, mbind, outcome_bind, mret,
    outcome_ret, fmap, outcome_fmap, Py.bind.
  rewrite Hp. simpl.
  destruct (values !! "start_datetime") as [s|]; [|eauto 6].
  destruct (truthy s); simpl; [eauto 6|].
  destruct (values !! "end_datetime") as [e|]; [|eauto 6].
  destruct (truthy e); simpl; eauto 6.
Qed.

(** X12. The sibling fields are read only for the value "null": on any other
    value the validator does the same whatever [values] holds, missing
    keys included. *)
Theorem validate_datetime_ignores_values (v : value)
    (values values' : gmap string value) :
  v ≠ VStr "null" →
  validate_datetime v values = validate_datetime v values'.
Proof.
  intros Hne. now rewrite !(validate_datetime_other _ _ _ Hne).
Qed.

End DatetimeValidatorMore.

(** ** More on item validation *)

Section ItemValidationMore.

Import item item_runs.

Context {World Response : Type}.
Variable Item_parse_obj : gmap string value -> outcome unit.
Variable requests_get : value -> io World Response.
Variable Response_json : Response -> outcome value.
Variable jsonschema_validate : gmap string value -> value -> io World unit.

Local Abbreviation validate_extension :=
  (item.validate_extension requests_get Response_json jsonschema_validate).
Local Abbreviation validate_item_try :=
  (item.validate_item_try Item_parse_obj requests_get Response_json
     jsonschema_validate).
Local Abbreviation validate_item :=
  (item.validate_item Item_parse_obj requests_get Response_json
     jsonschema_validate).

(** The loop returns exactly when its body returns on every element in
    turn. *)
Lemma for_each_returns (body : value -> io World unit) (l : list value)
    (w w' : World) :
  for_each body l w = (Return tt, w') ↔ each_succeeds body l w w'.
Proof.
  revert w. induction l as [|x l IH]; intros w; simpl.
  - split.
    + intros [= <-]. constructor.
    + inversion 1. reflexivity.
  - unfold mbind, io_mbind, io_bind. split.
    + destruct (body x w) as [[[]|e] w1] eqn:Hx; [|discriminate].
      intros H. econstructor; [exact Hx|]. now apply IH.
    + inversion 1 as [|? ? ? w1 ? Hx Hl]; subst.
      rewrite Hx. now apply IH.
Qed.

(** X13. A document that fails shape validation is rejected without any
    request: the world is as before. *)
Theorem validate_item_shape_failure (doc : gmap string value) (e : exn)
    (w : World) :
  Item_parse_obj doc = Raise e → is_Exception e = true →
  validate_item doc false w = (Return false, w)
  ∧ validate_item doc true w = (Raise e, w).
Proof.
  intros Hp He. unfold item.validate_item.
  rewrite (try_parse_obj_raises _ _ _ _ _ _ w Hp), He. split; reflexivity.
Qed.


(** X15. The extensions are validated in the order of the list and the
    first one that raises ends the run: the ones after it are not
    requested and do not matter for the result. *)
Theorem validate_item_first_failure (doc : gmap string value)
    (before after : list value) (x : value) (w w1 w2 : World) (e : exn) :
  Item_parse_obj doc = Return tt →
  doc !! "stac_extensions" = Some (VList (before ++ x :: after)) →
  each_succeeds (validate_extension doc) before w w1 →
  validate_extension doc x w1 = (Raise e, w2) →
  is_Exception e = true →
  validate_item doc false w = (Return false, w2)
  ∧ validate_item doc true w = (Raise e, w2).
Proof.
  intros Hp Hk Hb Hx He.
  assert (Htry : validate_item_try doc w = (Raise e, w2)).
  { rewrite (try_extensions _ _ _ _ _ (VList (before ++ x :: after))
               (before ++ x :: after) w Hp Hk).
    - apply for_each_first_failure with (w1 := w1); [|exact Hx].
      now apply for_each_returns.
    - now destruct before.
    - reflexivity. }
  unfold item.validate_item. rewrite Htry, He. split; reflexivity.
Qed.

(** X16. The flag [reraise_exception] changes how a failure is reported and
    nothing else: the world after the call is the same with and without
    it, and so is whether [True] is returned. *)
Theorem validate_item_flag_only_reports (doc : gmap string value)
    (w w' : World) :
  (validate_item doc true w).2 = (validate_item doc false w).2
  ∧ (validate_item doc true w = (Return true, w')
     ↔ validate_item doc false w = (Return true, w')).
Proof.
  split.
  - unfold item.validate_item.
    destruct (validate_item_try doc w) as [[[]|e] w1]; [reflexivity|].
    now destruct (is_Exception e).
  - now rewrite !validate_item_true_iff.
Qed.

(** X17. With [reraise_exception] set, [validate_item] never returns
    [False]: it returns [True] or raises. *)
Theorem validate_item_reraise_never_false (doc : gmap string value)
    (w w' : World) :
  validate_item doc true w ≠ (Return false, w').
Proof.
  unfold item.validate_item.
  destruct (validate_item_try doc w) as [[[]|e] w1]; [discriminate|].
  destruct (is_Exception e); discriminate.
Qed.

(** X18. What does not derive from [Exception] (a keyboard interrupt) is
    not turned into [False]: it leaves [validate_item] whatever the flag
    is. *)
Theorem validate_item_passes_non_exceptions (doc : gmap string value)
    (reraise : bool) (w w' : World) (e : exn) :
  validate_item_try doc w = (Raise e, w') → is_Exception e = false →
  validate_item doc reraise w = (Raise e, w').
Proof.
  intros Htry He. unfold item.validate_item. now rewrite Htry, He.
Qed.

End ItemValidationMore.

(** *** The properties above on sample data *)

Section MoreExamples.

Import Extensions registry_state item item_runs samples more_samples.

Local Abbreviation get := (Extensions.get urllib.urlparse_scheme).
Local Abbreviation lookup_key := (Extensions.lookup_key urllib.urlparse_scheme).
Local Abbreviation validate_datetime :=
  (item.validate_datetime datetime_parse.parse_datetime).

Lemma landsat_reachable : reachable landsat_registered.
Proof. exact (reachable_register _ _ _ _ reachable_builtins). Defined.

Lemma reachable_keeps_builtins_witness :
  reachable landsat_registered
  ∧ is_Some (builtins !! "eo")
  ∧ is_Some (landsat_registered !! "eo").
Proof.
  assert (Hs : is_Some (builtins !! "eo")) by (eexists; reflexivity).
  exact (conj landsat_reachable (conj Hs
           (reachable_keeps_builtins _ "eo" landsat_reachable Hs))).
Defined.

Lemma reachable_aliases_bound_witness :
  reachable landsat_registered ∧ aliases_bound landsat_registered.
Proof.
  exact (conj landsat_reachable
           (reachable_aliases_bound _ landsat_reachable)).
Defined.


Lemma register_completes_witness :
  alias_table builtins = Some ∅
  ∧ "landsat" ≠ "aliases"
  ∧ ∃ cls', register builtins "landsat" (Model "LandsatExtension") (Some "l8")
            = (Return tt, cls')
            ∧ alias_table cls' = Some (<["l8" := "landsat"]> ∅).
Proof.
  assert (Hne : "landsat" ≠ "aliases") by discriminate.
  exact (conj eq_refl (conj Hne
           (register_completes builtins "landsat" (Model "LandsatExtension")
              (Some "l8") ∅ eq_refl Hne))).
Defined.

(** A class does not let its [__name__] be rebound to a class: the call
    raises at the [setattr] and the registry is as before. *)
Example register_special_name :
  register builtins "__name__" (Model "NameExtension") (Some "n")
  = (Raise TypeError, builtins).
Proof. reflexivity. Qed.

Lemma register_aliases_replaces_table_witness :
  lookup_key "no-such-ext" = Return "no_such_ext"
  ∧ (register builtins "aliases" (Model "AliasExtension") None).2
      !! "no_such_ext" = None
  ∧ (register builtins "aliases" (Model "AliasExtension") None).1 = Return tt
  ∧ get (register builtins "aliases" (Model "AliasExtension") None).2
        "no-such-ext" = Raise TypeError.
Proof.
  destruct (register_aliases_replaces_table urllib.urlparse_scheme builtins
              (Model "AliasExtension") None) as (_ & Hout & Hget).
  exact (conj eq_refl (conj eq_refl (conj Hout
           (Hget "no-such-ext" "no_such_ext" eq_refl eq_refl)))).
Defined.


Lemma get_hyphen_underscore_witness :
  urllib.urlparse_scheme "item-assets" = Return ""
  ∧ urllib.urlparse_scheme "item_assets" = Return ""
  ∧ replace "-" "_" "item-assets" = replace "-" "_" "item_assets"
  ∧ get builtins "item-assets" = get builtins "item_assets".
Proof.
  exact (conj eq_refl (conj eq_refl (conj eq_refl
           (get_hyphen_underscore urllib.urlparse_scheme builtins
              "item-assets" "item_assets" eq_refl eq_refl eq_refl)))).
Defined.

Lemma validate_datetime_never_returns_text_witness :
  validate_datetime (VStr "2020-01-01T00:00:00Z") no_range
  = Return (VDatetime jan_1)
  ∧ is_str (VDatetime jan_1) = false.
Proof.
  exact (conj eq_refl
           (validate_datetime_never_returns_text datetime_parse.parse_datetime
              (VStr "2020-01-01T00:00:00Z") (VDatetime jan_1) no_range
              eq_refl)).
Defined.

Lemma validate_datetime_revalidate_witness :
  validate_datetime (VStr "2020-01-01T00:00:00Z") no_range
  = Return (VDatetime jan_1)
  ∧ validate_datetime (VDatetime jan_1) full_range = Return (VDatetime jan_1).
Proof.
  exact (conj eq_refl
           (validate_datetime_revalidate datetime_parse.parse_datetime
              (VStr "2020-01-01T00:00:00Z") (VDatetime jan_1) no_range
              full_range eq_refl)).
Defined.

Lemma validate_datetime_null_always_raises_witness :
  datetime_parse.parse_datetime "null" = Raise DateTimeError
  ∧ ∃ e, validate_datetime (VStr "null") ∅ = Raise e
         ∧ (e = KeyError "start_datetime" ∨ e = KeyError "end_datetime"
            ∨ e = ValueError range_required ∨ e = DateTimeError).
Proof.
  exact (conj eq_refl
           (validate_datetime_null_always_raises datetime_parse.parse_datetime
              ∅ DateTimeError eq_refl)).
Defined.

Lemma validate_datetime_ignores_values_witness :
  VStr "not-a-date" ≠ VStr "null"
  ∧ validate_datetime (VStr "not-a-date") full_range
    = validate_datetime (VStr "not-a-date") ∅.
Proof.
  assert (Hne : VStr "not-a-date" ≠ VStr "null") by discriminate.
  exact (conj Hne
           (validate_datetime_ignores_values datetime_parse.parse_datetime
              (VStr "not-a-date") full_range ∅ Hne)).
Defined.

Lemma validate_item_no_extensions_witness :
  parse_obj_required item_with_none = Return tt
  ∧ item_with_none !! "stac_extensions" = Some VNone
  ∧ truthy VNone = false
  ∧ item.validate_item parse_obj_required offline_get json_body accept_schema
      item_with_none false [] = (Return true, []).
Proof.
  exact (conj eq_refl (conj eq_refl (conj eq_refl
           (validate_item_no_extensions parse_obj_required offline_get
              json_body accept_schema item_with_none VNone false []
              eq_refl eq_refl eq_refl)))).
Defined.

Lemma validate_item_shape_failure_witness :
  parse_obj_required item_without_id
  = Raise (ValidationError "id: field required")
  ∧ is_Exception (ValidationError "id: field required") = true
  ∧ item.validate_item parse_obj_required online_get json_body accept_schema
      item_without_id false [] = (Return false, [])
  ∧ item.validate_item parse_obj_required online_get json_body accept_schema
      item_without_id true []
    = (Raise (ValidationError "id: field required"), []).
Proof.
  exact (conj eq_refl (conj eq_refl
           (validate_item_shape_failure parse_obj_required online_get
              json_body accept_schema item_without_id
              (ValidationError "id: field required") [] eq_refl eq_refl))).
Defined.


Lemma validate_item_first_failure_witness :
  parse_obj_required item_with_two_extensions = Return tt
  ∧ item_with_two_extensions !! "stac_extensions"
    = Some (VList ([] ++ schema_url :: [other_url]))
  ∧ item.validate_extension offline_get json_body accept_schema
      item_with_two_extensions schema_url []
    = (Raise (RequestException "connection refused"), [schema_url])
  ∧ item.validate_item parse_obj_required offline_get json_body accept_schema
      item_with_two_extensions false [] = (Return false, [schema_url])
  ∧ item.validate_item parse_obj_required offline_get json_body accept_schema
      item_with_two_extensions true []
    = (Raise (RequestException "connection refused"), [schema_url]).
Proof.
  exact (conj eq_refl (conj eq_refl (conj eq_refl
           (validate_item_first_failure parse_obj_required offline_get
              json_body accept_schema item_with_two_extensions
              [] [other_url] schema_url [] [] [schema_url]
              (RequestException "connection refused")
              eq_refl eq_refl (each_nil _ []) eq_refl eq_refl)))).
Defined.

Lemma validate_item_passes_non_exceptions_witness :
  item.validate_item_try parse_obj_interrupted offline_get json_body
    accept_schema plain_item [] = (Raise KeyboardInterrupt, [])
  ∧ is_Exception KeyboardInterrupt = false
  ∧ item.validate_item parse_obj_interrupted offline_get json_body
      accept_schema plain_item false [] = (Raise KeyboardInterrupt, []).
Proof.
  exact (conj eq_refl (conj eq_refl
           (validate_item_passes_non_exceptions parse_obj_interrupted
              offline_get json_body accept_schema plain_item false [] []
              KeyboardInterrupt eq_refl eq_refl))).
Defined.

End MoreExamples.
